(** * pybamm/discretisations/base_mesh.py : the [BaseMesh] class

    A shallow embedding of the class [BaseMesh]: its constructor, which
    stores a time grid built by [numpy.linspace], and its four read-only
    properties.  A Python object is modelled by its instance dictionary
    (a finite map from attribute names to values); code that runs on
    [self] is a computation in a small state-and-exception monad over that
    dictionary. *)

From Stdlib Require Import ZArith QArith Lqa Lia.
From Stdlib Require PrimFloat Uint63.
From stdpp Require Import gmap strings list fin_maps list_numbers.

Local Open Scope Z_scope.

(** ** Python values, exceptions and outcomes *)

Module Py.

(** The exceptions the modelled code can raise.  [ValueError num] is
    numpy's "Number of samples, num, must be non-negative.";
    [AttributeError_missing a] is the failed lookup of attribute [a];
    [AttributeError_readonly a] is the assignment to the property [a],
    which has no setter. *)
Inductive exn : Type :=
| ValueError (num : Z)
| AttributeError_missing (attr : string)
| AttributeError_readonly (attr : string).

Inductive exn_class : Type := ValueErrorClass | AttributeErrorClass.

Definition class_of (e : exn) : exn_class :=
  match e with
  | ValueError _ => ValueErrorClass
  | AttributeError_missing _ | AttributeError_readonly _ => AttributeErrorClass
  end.

Inductive outcome (A : Type) : Type :=
| Ok (a : A)
| Raise (e : exn).
Arguments Ok {A} a.
Arguments Raise {A} e.

(** Values held in attributes and passed as arguments.  A float is an
    exact rational here: rounding of binary64 arithmetic is not modelled.
    [VObj] is a reference to some other object, known by its identity. *)
Inductive value : Type :=
| VNone
| VInt (z : Z)
| VFloat (q : Q)
| VArray (a : list Q)
| VObj (id : nat).

(** The instance dictionary of an object. *)
Abbreviation obj := (gmap string value).

(** Computations on [self]: they return a result or raise, and hand the
    dictionary on. *)
Definition M (A : Type) : Type := obj → outcome A * obj.

Definition ret {A} (a : A) : M A := λ self, (Ok a, self).
Definition raise {A} (e : exn) : M A := λ self, (Raise e, self).
Definition bind {A B} (c : M A) (k : A → M B) : M B :=
  λ self,
    match c self with
    | (Ok a, self') => k a self'
    | (Raise e, self') => (Raise e, self')
    end.
Definition lift {A} (r : outcome A) : M A := λ self, (r, self).

#[export] Instance M_ret : MRet M := @ret.
#[export] Instance M_bind : MBind M := λ A B k c, bind c k.

End Py.
Import Py.

(** ** numpy.linspace *)

Module np.

(** [arange 0 num]: the values 0, 1, ..., num - 1 as floats. *)
Definition arange (num : Z) : list Q := inject_Z <$> seqZ 0 num.

(** [y[-1] = v] on a one-dimensional array. *)
Definition set_last (y : list Q) (v : Q) : list Q :=
  <[pred (length y) := v]> y.

(** Modelled from the spec: [numpy.linspace(start, stop, num)] with its
    default [endpoint=True], the routine of the external numeric-array
    library that the constructor calls; its code is not part of this
    repository.  The spec asks for [num] evenly spaced values from [start]
    to [stop] inclusive, one entry equal to [start] for [num = 1], and an
    error of the allocation for a negative [num].  The definition follows
    numpy's own steps: reject a negative [num]; [div = num - 1];
    scale [arange(0, num)] by [step = delta / div] (by [delta] alone when
    [div <= 0], and by [/ div] then [* delta] when [step] is zero); add
    [start]; overwrite the last entry with [stop] when [num > 1]. *)
Definition linspace (start stop : Q) (num : Z) : outcome (list Q) :=
  if num <? 0 then Raise (ValueError num)
  else
    let div := num - 1 in
    let delta := (stop - start)%Q in
    let y := arange num in
    let y :=
      if 0 <? div then
        let step := (delta / inject_Z div)%Q in
        if Qeq_bool step 0
        then (λ v, v / inject_Z div * delta)%Q <$> y
        else (λ v, v * step)%Q <$> y
      else (λ v, v * delta)%Q <$> y in
    let y := (λ v, v + start)%Q <$> y in
    let y := if 1 <? num then set_last y stop else y in
    Ok y.

(** The common step [delta / div] of a grid with at least two points. *)
Definition spacing (start stop : Q) (num : Z) : Q :=
  ((stop - start) / inject_Z (num - 1))%Q.

End np.

(** ** numpy.linspace in double precision *)

Module np64.

Import PrimFloat.

(** The conversion of an index to a float, as [arange] does it. *)
Definition of_Z (z : Z) : float := PrimFloat.of_uint63 (Uint63.of_Z z).

Definition arange (num : Z) : list float := of_Z <$> seqZ 0 num.

Definition set_last (y : list float) (v : float) : list float :=
  <[pred (length y) := v]> y.

(** Modelled from the spec: the same external routine,
    [numpy.linspace(start, stop, num)], with every arithmetic step of
    [np.linspace] carried out on IEEE binary64 floats, as numpy runs them
    on the array that the constructor stores. *)
Definition linspace (start stop : float) (num : Z) : outcome (list float) :=
  if num <? 0 then Raise (ValueError num)
  else
    let div := num - 1 in
    let delta := PrimFloat.sub stop start in
    let y := arange num in
    let y :=
      if 0 <? div then
        let step := PrimFloat.div delta (of_Z div) in
        if PrimFloat.eqb step PrimFloat.zero
        then (λ v, PrimFloat.mul (PrimFloat.div v (of_Z div)) delta) <$> y
        else (λ v, PrimFloat.mul v step) <$> y
      else (λ v, PrimFloat.mul v delta) <$> y in
    let y := (λ v, PrimFloat.add v start) <$> y in
    let y := if 1 <? num then set_last y stop else y in
    Ok y.



End np64.

(** ** The class *)

(** The four properties of the class. *)
Inductive accessor : Type :=
| NegativeElectrode
| Separator
| PositiveElectrode
| WholeCell.

Definition property_name (a : accessor) : string :=
  match a with
  | NegativeElectrode => "negative_electrode"
  | Separator => "separator"
  | PositiveElectrode => "positive_electrode"
  | WholeCell => "whole_cell"
  end.

(** The attribute each getter reads. *)
Definition backing_field (a : accessor) : string :=
  match a with
  | NegativeElectrode => "_negative_electrode"
  | Separator => "_separator"
  | PositiveElectrode => "_positive_electrode"
  | WholeCell => "_whole_cell"
  end.

(** The class dictionary: which names are properties. *)
Definition class_property (name : string) : option accessor :=
  if decide (name = "negative_electrode") then Some NegativeElectrode
  else if decide (name = "separator") then Some Separator
  else if decide (name = "positive_electrode") then Some PositiveElectrode
  else if decide (name = "whole_cell") then Some WholeCell
  else None.

(** [self.name] for a name the class does not define: the instance
    dictionary decides. *)
Definition self_attr (name : string) : M value :=
  λ self,
    match self !! name with
    | Some v => (Ok v, self)
    | None => (Raise (AttributeError_missing name), self)
    end.

Definition negative_electrode : M value := self_attr "_negative_electrode".
Definition separator : M value := self_attr "_separator".
Definition positive_electrode : M value := self_attr "_positive_electrode".
Definition whole_cell : M value := self_attr "_whole_cell".

Definition fget (a : accessor) : M value :=
  match a with
  | NegativeElectrode => negative_electrode
  | Separator => separator
  | PositiveElectrode => positive_electrode
  | WholeCell => whole_cell
  end.

(** Attribute read [self.name]: a property of the class runs its getter,
    any other name is looked up in the instance dictionary. *)
Definition getattr (name : string) : M value :=
  match class_property name with
  | Some a => fget a
  | None => self_attr name
  end.

(** Attribute assignment [self.name = v]: a property without a setter
    refuses it, any other name is bound in the instance dictionary. *)
Definition setattr (name : string) (v : value) : M unit :=
  match class_property name with
  | Some _ => raise (AttributeError_readonly name)
  | None => λ self, (Ok tt, <[name := v]> self)
  end.

(** [BaseMesh.__init__(self, param, target_npts, tsteps, tend)]. *)
Definition __init__ (param target_npts : value) (tsteps : Z) (tend : Q)
  : M unit :=
  t ← lift (np.linspace 0 tend tsteps);
  setattr "time" (VArray t).

(** The call [BaseMesh(param, target_npts=10, tsteps=100, tend=1)]: an
    omitted argument takes its default, [__init__] runs on a new object
    with an empty dictionary, and the object is the result unless
    [__init__] raised. *)
Definition BaseMesh (param : value) (target_npts : option value)
    (tsteps : option Z) (tend : option Q) : outcome obj :=
  match __init__ param (default (VInt 10) target_npts)
          (default 100 tsteps) (default 1%Q tend) ∅ with
  | (Ok _, self) => Ok self
  | (Raise e, _) => Raise e
  end.

(** The operations on a mesh: reading an attribute, assigning to one,
    and running [__init__] on it again. *)
Inductive op : Type :=
| Read (name : string)
| Assign (name : string) (v : value)
| Init (param target_npts : value) (tsteps : Z) (tend : Q).

(** The object after one operation, whether it returned or raised. *)
Definition step (self : obj) (o : op) : obj :=
  match o with
  | Read name => (getattr name self).2
  | Assign name v => (setattr name v self).2
  | Init param target_npts tsteps tend =>
      (__init__ param target_npts tsteps tend self).2
  end.



(** The time grid of a mesh, when it has one. *)
Definition time (self : obj) : option (list Q) :=
  match self !! "time" with
  | Some (VArray t) => Some t
  | _ => None
  end.

(** ** Facts about [np.linspace] *)

Section linspace_facts.

Variables (start stop : Q) (num : Z).

Lemma arange_length : length (np.arange num) = Z.to_nat num.
Proof. unfold np.arange. by rewrite length_fmap, length_seqZ. Qed.

Lemma arange_lookup (i : nat) :
  Z.of_nat i < num → np.arange num !! i = Some (inject_Z (Z.of_nat i)).
Proof.
  intros Hi. unfold np.arange.
  rewrite list_lookup_fmap, lookup_seqZ_lt by done. done.
Qed.

Lemma inject_Z_pos_nonzero (d : Z) : 0 < d → ¬ (inject_Z d == 0)%Q.
Proof.
  intros Hd He.
  assert (Hlt : (inject_Z 0 < inject_Z d)%Q) by (by rewrite <- Zlt_Qlt).
  rewrite He in Hlt. by apply Qlt_irrefl in Hlt.
Qed.

Lemma linspace_negative :
  num < 0 → np.linspace start stop num = Raise (ValueError num).
Proof. intros Hn. unfold np.linspace. by rewrite (proj2 (Z.ltb_lt _ _) Hn). Qed.

Lemma linspace_zero : num = 0 → np.linspace start stop num = Ok [].
Proof. by intros ->. Qed.

Lemma linspace_one :
  num = 1 → np.linspace start stop num = Ok [(0 * (stop - start) + start)%Q].
Proof. by intros ->. Qed.

(** From two points on, the call returns [num] entries, entry [i] being
    [start + i * spacing]; the overwritten last entry agrees with that. *)
Lemma linspace_grid :
  2 ≤ num →
  ∃ t : list Q,
    np.linspace start stop num = Ok t ∧
    length t = Z.to_nat num ∧
    (∀ i : nat, Z.of_nat i < num →
      ∃ x, t !! i = Some x ∧ (x == start + inject_Z (Z.of_nat i) * np.spacing start stop num)%Q) ∧
    t !! Z.to_nat (num - 1) = Some stop.
Proof.
  intros Hn. unfold np.linspace, np.spacing.
  rewrite (proj2 (Z.ltb_ge _ _)) by lia.
  rewrite (proj2 (Z.ltb_lt 0 (num - 1))) by lia.
  rewrite (proj2 (Z.ltb_lt 1 num)) by lia.
  assert (Hd : ¬ (inject_Z (num - 1) == 0)%Q)
    by (apply inject_Z_pos_nonzero; lia).
  match goal with |- context [fmap ?f (if ?b then ?l1 else ?l2)] =>
    set (y := fmap f (if b then l1 else l2)) end.
  assert (Hlen : length y = Z.to_nat num).
  { subst y. rewrite length_fmap.
    destruct (Qeq_bool _ _); by rewrite length_fmap, arange_length. }
  exists (np.set_last y stop). unfold np.set_last. rewrite Hlen.
  split; [done|]. split; [by rewrite length_insert|]. split.
  - intros i Hi. destruct (decide (Z.of_nat i = num - 1)) as [Hlast|Hne].
    + exists stop. split.
      * replace (pred (Z.to_nat num)) with i by lia.
        apply list_lookup_insert_eq. lia.
      * rewrite Hlast. field. exact Hd.
    + rewrite list_lookup_insert_ne by lia. subst y.
      rewrite list_lookup_fmap.
      destruct (Qeq_bool _ _);
        rewrite list_lookup_fmap, arange_lookup by done; simpl;
        eexists; (split; [reflexivity|]); field; exact Hd.
  - replace (pred (Z.to_nat num)) with (Z.to_nat (num - 1)) by lia.
    apply list_lookup_insert_eq. lia.
Qed.

End linspace_facts.

Example linspace_five_points :
  np.linspace 0 (3 # 2) 5 = Ok [0 # 8; 3 # 8; 6 # 8; 9 # 8; 3 # 2].
Proof. reflexivity. Qed.

Example linspace_zero_length :
  np.linspace 0 0 3 = Ok [0 # 2; 0 # 2; 0%Q].
Proof. reflexivity. Qed.

Example linspace_minus_three :
  np.linspace 0 1 (-3) = Raise (ValueError (-3)).
Proof. reflexivity. Qed.

(** ** Facts about the object model *)

Lemma class_property_name (a : accessor) :
  class_property (property_name a) = Some a.
Proof. by destruct a. Qed.

Lemma class_property_backing (a : accessor) :
  class_property (backing_field a) = None.
Proof. by destruct a. Qed.

Lemma fget_self_attr (a : accessor) : fget a = self_attr (backing_field a).
Proof. by destruct a. Qed.

Lemma getattr_property (a : accessor) : getattr (property_name a) = fget a.
Proof. unfold getattr. by rewrite class_property_name. Qed.



(** What the constructor does, in terms of the call to [np.linspace]. *)
Lemma init_ok param target_npts tsteps tend (t : list Q) (self : obj) :
  np.linspace 0 tend tsteps = Ok t →
  __init__ param target_npts tsteps tend self
    = (Ok tt, <["time" := VArray t]> self).
Proof. intros Ht. unfold __init__, mbind, M_bind, bind, lift. by rewrite Ht. Qed.

Lemma init_raise param target_npts tsteps tend (e : exn) (self : obj) :
  np.linspace 0 tend tsteps = Raise e →
  __init__ param target_npts tsteps tend self = (Raise e, self).
Proof. intros Ht. unfold __init__, mbind, M_bind, bind, lift. by rewrite Ht. Qed.

Lemma BaseMesh_ok param target_npts tsteps tend (t : list Q) :
  np.linspace 0 (default 1%Q tend) (default 100 tsteps) = Ok t →
  BaseMesh param target_npts tsteps tend = Ok {["time" := VArray t]}.
Proof. intros Ht. unfold BaseMesh. by rewrite (init_ok _ _ _ _ t). Qed.

Lemma BaseMesh_raise param target_npts tsteps tend (e : exn) :
  np.linspace 0 (default 1%Q tend) (default 100 tsteps) = Raise e →
  BaseMesh param target_npts tsteps tend = Raise e.
Proof. intros Ht. unfold BaseMesh. by rewrite (init_raise _ _ _ _ e). Qed.

(** A constructed mesh holds the attribute [time] and nothing else. *)
Lemma BaseMesh_inv param target_npts tsteps tend (self : obj) :
  BaseMesh param target_npts tsteps tend = Ok self →
  ∃ t : list Q,
    np.linspace 0 (default 1%Q tend) (default 100 tsteps) = Ok t ∧
    self = {["time" := VArray t]}.
Proof.
  intros Hm.
  destruct (np.linspace 0 (default 1%Q tend) (default 100 tsteps))
    as [t|e] eqn:Ht.
  - exists t. split; [done|].
    rewrite (BaseMesh_ok _ _ _ _ t Ht) in Hm. by inversion Hm.
  - by rewrite (BaseMesh_raise _ _ _ _ e Ht) in Hm.
Qed.

Lemma time_singleton (t : list Q) :
  time ({["time" := VArray t]} : obj) = Some t.
Proof. unfold time. by rewrite lookup_singleton_eq. Qed.

(** ** The time grid *)

(** C1.  For every [tsteps >= 2] and every [tend], the constructor
    succeeds and the stored time sequence has exactly [tsteps] entries,
    entry [i] being [i * tend / (tsteps - 1)]: the first entry is 0, the
    last is [tend], and consecutive entries differ by
    [tend / (tsteps - 1)].  At [tsteps = 100], [tend = 1] this is 100
    entries from 0 to 1 with spacing 1/99. *)
Theorem time_evenly_spaced (param : value) (target_npts : option value)
    (tsteps : Z) (tend : Q) :
  2 ≤ tsteps →
  ∃ (self : obj) (t : list Q),
    BaseMesh param target_npts (Some tsteps) (Some tend) = Ok self ∧
    time self = Some t ∧
    Z.of_nat (length t) = tsteps ∧
    (∀ i : nat, Z.of_nat i < tsteps →
      ∃ x, t !! i = Some x ∧
           (x == inject_Z (Z.of_nat i) * tend / inject_Z (tsteps - 1))%Q) ∧
    (∃ x, t !! 0%nat = Some x ∧ (x == 0)%Q) ∧
    (∃ x, t !! Z.to_nat (tsteps - 1) = Some x ∧ (x == tend)%Q) ∧
    (∀ (i : nat) (x y : Q), t !! i = Some x → t !! S i = Some y →
      (y - x == tend / inject_Z (tsteps - 1))%Q).
Proof.
  intros Hn.
  destruct (linspace_grid 0 tend tsteps Hn) as (t & Ht & Hlen & Hent & Hlast).
  assert (Hd : ¬ (inject_Z (tsteps - 1) == 0)%Q)
    by (apply inject_Z_pos_nonzero; lia).
  exists {["time" := VArray t]}, t.
  split; [by apply BaseMesh_ok|]. split; [apply time_singleton|].
  split; [lia|]. split; [|split; [|split]].
  - intros i Hi. destruct (Hent i Hi) as (x & Hx & Hxv).
    exists x. split; [done|]. rewrite Hxv. unfold np.spacing. field. exact Hd.
  - destruct (Hent 0%nat ltac:(lia)) as (x & Hx & Hxv).
    exists x. split; [done|]. rewrite Hxv. simpl. ring.
  - exists tend. split; [done|reflexivity].
  - intros i x y Hx Hy.
    assert (Hi : Z.of_nat (S i) < tsteps).
    { apply lookup_lt_Some in Hy. lia. }
    destruct (Hent i ltac:(lia)) as (x' & Hx' & Hxv).
    destruct (Hent (S i) Hi) as (y' & Hy' & Hyv).
    rewrite Hx in Hx'. rewrite Hy in Hy'.
    injection Hx' as <-. injection Hy' as <-.
    rewrite Hxv, Hyv, Nat2Z.inj_succ. unfold Z.succ.
    rewrite inject_Z_plus. unfold np.spacing. field. exact Hd.
Qed.

(** The default grid: 100 steps up to time 1, spaced by 1/99. *)
Lemma time_evenly_spaced_100 :
  2 ≤ 100 ∧
  ∃ (self : obj) (t : list Q),
    BaseMesh VNone None (Some 100) (Some 1%Q) = Ok self ∧
    time self = Some t ∧
    Z.of_nat (length t) = 100 ∧
    (∀ i : nat, Z.of_nat i < 100 →
      ∃ x, t !! i = Some x ∧ (x == inject_Z (Z.of_nat i) * 1 / 99)%Q) ∧
    (∃ x, t !! 0%nat = Some x ∧ (x == 0)%Q) ∧
    (∃ x, t !! 99%nat = Some x ∧ (x == 1)%Q) ∧
    (∀ (i : nat) (x y : Q), t !! i = Some x → t !! S i = Some y →
      (y - x == 1 / 99)%Q).
Proof.
  split; [lia|]. apply (time_evenly_spaced VNone None 100 1%Q). lia.
Defined.

(** C6.  With [tsteps = 1] the constructor succeeds and the time
    sequence has exactly one entry, which equals 0, whatever [tend] is. *)
Theorem time_single_step (param : value) (target_npts : option value)
    (tend : Q) :
  ∃ (self : obj) (x : Q),
    BaseMesh param target_npts (Some 1) (Some tend) = Ok self ∧
    time self = Some [x] ∧ (x == 0)%Q.
Proof.
  exists {["time" := VArray [(0 * (tend - 0) + 0)%Q]]}, (0 * (tend - 0) + 0)%Q.
  split; [by apply BaseMesh_ok, linspace_one|].
  split; [apply time_singleton|]. ring.
Qed.

(** C9.  With [tsteps = 0] the constructor succeeds and the time sequence
    is empty, so no entry of it is 0 or [tend]. *)
Theorem time_no_steps (param : value) (target_npts : option value)
    (tend : Q) :
  ∃ self : obj,
    BaseMesh param target_npts (Some 0) (Some tend) = Ok self ∧
    time self = Some [] ∧
    ∀ t : list Q, time self = Some t →
      length t = 0%nat ∧
      ∀ (i : nat) (x : Q), t !! i = Some x → ¬ (x == 0)%Q ∧ ¬ (x == tend)%Q.
Proof.
  exists {["time" := VArray []]}.
  split; [by apply BaseMesh_ok, linspace_zero|].
  split; [apply time_singleton|].
  intros t Ht. rewrite time_singleton in Ht. injection Ht as <-.
  split; [done|]. intros i x Hx. by rewrite lookup_nil in Hx.
Qed.

(** C5.  With a negative [tsteps] the constructor raises exactly the
    exception [np.linspace] raises, a [ValueError]; [__init__] leaves the
    object as it found it, so nothing gets a [time] attribute, and no mesh
    results. *)
Theorem negative_tsteps_raises (param : value) (target_npts : option value)
    (tsteps : Z) (tend : Q) :
  tsteps < 0 →
  ∃ e : exn,
    np.linspace 0 tend tsteps = Raise e ∧
    class_of e = ValueErrorClass ∧
    (∀ self : obj,
      __init__ param (default (VInt 10) target_npts) tsteps tend self
        = (Raise e, self)) ∧
    BaseMesh param target_npts (Some tsteps) (Some tend) = Raise e.
Proof.
  intros Hn. exists (ValueError tsteps).
  pose proof (linspace_negative 0 tend tsteps Hn) as Hl.
  split; [done|]. split; [done|]. split.
  - intros self. by apply init_raise.
  - by apply BaseMesh_raise.
Qed.

Lemma negative_tsteps_raises_witness :
  -1 < 0 ∧
  ∃ e : exn,
    np.linspace 0 1 (-1) = Raise e ∧
    class_of e = ValueErrorClass ∧
    (∀ self : obj,
      __init__ VNone (default (VInt 10) None) (-1) 1 self = (Raise e, self)) ∧
    BaseMesh VNone None (Some (-1)) (Some 1%Q) = Raise e.
Proof.
  split; [lia|]. apply (negative_tsteps_raises VNone None (-1) 1%Q). lia.
Defined.






(** ** The constructor's arguments *)

(** C4.  Two calls with the same [tsteps] and [tend] build identical
    meshes whatever [param] and [target_npts] are, given or omitted; the
    same holds for [__init__] run on any object. *)
Theorem init_ignores_param_and_target_npts
    (param1 param2 : value) (target_npts1 target_npts2 : option value)
    (tsteps : option Z) (tend : option Q) :
  BaseMesh param1 target_npts1 tsteps tend
    = BaseMesh param2 target_npts2 tsteps tend ∧
  ∀ (n1 n2 : value) (ts : Z) (te : Q) (self : obj),
    __init__ param1 n1 ts te self = __init__ param2 n2 ts te self.
Proof. split; [reflexivity|]. intros. reflexivity. Qed.

(** C7.  The defaults are [target_npts = 10], [tsteps = 100], [tend = 1]:
    the call with [param] alone gives the same result as the call that
    passes these three values, and so does leaving out any one of them;
    the mesh it builds has 100 time entries, the last of them 1. *)
Theorem defaults_are_10_100_1 (param : value) :
  BaseMesh param None None None
    = BaseMesh param (Some (VInt 10)) (Some 100) (Some 1%Q) ∧
  (∀ (target_npts : option value) (tsteps : option Z) (tend : option Q),
    BaseMesh param None tsteps tend
      = BaseMesh param (Some (VInt 10)) tsteps tend ∧
    BaseMesh param target_npts None tend
      = BaseMesh param target_npts (Some 100) tend ∧
    BaseMesh param target_npts tsteps None
      = BaseMesh param target_npts tsteps (Some 1%Q)) ∧
  ∃ (self : obj) (t : list Q),
    BaseMesh param None None None = Ok self ∧
    time self = Some t ∧ length t = 100%nat ∧ t !! 99%nat = Some 1%Q.
Proof.
  split; [reflexivity|]. split; [done|].
  destruct (linspace_grid 0 1 100 ltac:(lia)) as (t & Hl & Hlen & _ & Hlast).
  exists {["time" := VArray t]}, t.
  split; [by apply BaseMesh_ok|]. split; [apply time_singleton|]. done.
Qed.

(** ** The four properties *)

Lemma backing_field_not_time (a : accessor) : "time" ≠ backing_field a.
Proof. by destruct a. Qed.

(** No backing field is bound in a mesh that the constructor returned. *)
Lemma BaseMesh_backing_unset param target_npts tsteps tend (self : obj)
    (a : accessor) :
  BaseMesh param target_npts tsteps tend = Ok self →
  self !! backing_field a = None.
Proof.
  intros Hm. destruct (BaseMesh_inv _ _ _ _ _ Hm) as (t & _ & ->).
  apply lookup_singleton_ne, backing_field_not_time.
Qed.

Lemma self_attr_unset (name : string) (self : obj) :
  self !! name = None →
  self_attr name self = (Raise (AttributeError_missing name), self).
Proof. intros Hn. unfold self_attr. by rewrite Hn. Qed.

Lemma self_attr_set (name : string) (v : value) (self : obj) :
  self !! name = Some v → self_attr name self = (Ok v, self).
Proof. intros Hn. unfold self_attr. by rewrite Hn. Qed.

(** C8.  On a mesh that the constructor alone built, each of the four
    properties raises the attribute-lookup error for its backing field,
    through the getter and through [self.name] alike: [__init__] binds
    none of the backing fields. *)
Theorem fresh_mesh_accessor_raises (param : value)
    (target_npts : option value) (tsteps : option Z) (tend : option Q)
    (self : obj) (a : accessor) :
  BaseMesh param target_npts tsteps tend = Ok self →
  self !! backing_field a = None ∧
  fget a self = (Raise (AttributeError_missing (backing_field a)), self) ∧
  getattr (property_name a) self
    = (Raise (AttributeError_missing (backing_field a)), self) ∧
  class_of (AttributeError_missing (backing_field a)) = AttributeErrorClass.
Proof.
  intros Hm. pose proof (BaseMesh_backing_unset _ _ _ _ _ a Hm) as Hb.
  split; [done|].
  rewrite getattr_property, fget_self_attr.
  by rewrite (self_attr_unset _ _ Hb).
Qed.

Lemma fresh_mesh_accessor_raises_witness :
  BaseMesh VNone None (Some 2) (Some 1%Q)
    = Ok {["time" := VArray [(0 * (1 / 1) + 0)%Q; 1%Q]]} ∧
  ({["time" := VArray [(0 * (1 / 1) + 0)%Q; 1%Q]]} : obj) !! "_whole_cell"
    = None ∧
  whole_cell {["time" := VArray [(0 * (1 / 1) + 0)%Q; 1%Q]]}
    = (Raise (AttributeError_missing "_whole_cell"),
       {["time" := VArray [(0 * (1 / 1) + 0)%Q; 1%Q]]}) ∧
  getattr "whole_cell" {["time" := VArray [(0 * (1 / 1) + 0)%Q; 1%Q]]}
    = (Raise (AttributeError_missing "_whole_cell"),
       {["time" := VArray [(0 * (1 / 1) + 0)%Q; 1%Q]]}) ∧
  class_of (AttributeError_missing "_whole_cell") = AttributeErrorClass.
Proof.
  split; [by vm_compute|].
  apply (fresh_mesh_accessor_raises VNone None (Some 2) (Some 1%Q) _ WholeCell).
  by vm_compute.
Defined.

(** The mesh built with all defaults stores no subdomain, and reading
    [negative_electrode] on it raises instead of returning an object. *)
Lemma accessor_read_through_fails :
  ∃ self : obj,
    BaseMesh VNone None None None = Ok self ∧
    negative_electrode self
      = (Raise (AttributeError_missing "_negative_electrode"), self) ∧
    ¬ ∃ v : value, (negative_electrode self).1 = Ok v.
Proof.
  destruct (linspace_grid 0 1 100 ltac:(lia)) as (t & Hl & _).
  assert (Hm : BaseMesh VNone None None None = Ok {["time" := VArray t]})
    by (by apply BaseMesh_ok).
  exists {["time" := VArray t]}. split; [done|].
  pose proof (BaseMesh_backing_unset _ _ _ _ _ NegativeElectrode Hm) as Hb.
  unfold negative_electrode.
  rewrite (self_attr_unset "_negative_electrode" _ Hb).
  split; [done|]. by intros [v Hv].
Qed.

(** C2, amended.  Whenever the backing field of a property holds a value,
    the property returns exactly that value and leaves the object as it
    was, through the getter and through [self.name] alike. *)
Theorem accessor_read_through (self : obj) (a : accessor) (v : value) :
  self !! backing_field a = Some v →
  fget a self = (Ok v, self) ∧
  getattr (property_name a) self = (Ok v, self).
Proof.
  intros Hb. rewrite getattr_property, fget_self_attr.
  by rewrite (self_attr_set _ _ _ Hb).
Qed.

Lemma accessor_read_through_witness :
  (<["_separator" := VObj 7]> ({["time" := VArray [0%Q; 1%Q]]} : obj))
    !! "_separator" = Some (VObj 7) ∧
  separator (<["_separator" := VObj 7]> {["time" := VArray [0%Q; 1%Q]]})
    = (Ok (VObj 7),
       <["_separator" := VObj 7]> {["time" := VArray [0%Q; 1%Q]]}) ∧
  getattr "separator"
      (<["_separator" := VObj 7]> {["time" := VArray [0%Q; 1%Q]]})
    = (Ok (VObj 7),
       <["_separator" := VObj 7]> {["time" := VArray [0%Q; 1%Q]]}).
Proof.
  split; [by vm_compute|].
  apply (accessor_read_through _ Separator (VObj 7)). by vm_compute.
Defined.





(** ** Further properties of the constructor *)


(** ** Further properties of the object *)

(** X4.  A mesh that the constructor returned holds the single attribute
    [time], bound to the array that [np.linspace] returned, and reading
    [self.time] gives that array back: none of the arguments is kept. *)
Theorem constructed_mesh_holds_time_only (param : value)
    (target_npts : option value) (tsteps : option Z) (tend : option Q)
    (self : obj) :
  BaseMesh param target_npts tsteps tend = Ok self →
  dom self = ({["time"]} : gset string) ∧
  ∃ t : list Q,
    np.linspace 0 (default 1%Q tend) (default 100 tsteps) = Ok t ∧
    getattr "time" self = (Ok (VArray t), self) ∧
    time self = Some t.
Proof.
  intros Hm. destruct (BaseMesh_inv _ _ _ _ _ Hm) as (t & Ht & ->).
  split; [apply dom_singleton_L|].
  exists t. split; [done|]. split; [|apply time_singleton].
  unfold getattr. simpl. unfold self_attr. by rewrite lookup_singleton_eq.
Qed.

Lemma constructed_mesh_holds_time_only_witness :
  BaseMesh VNone None (Some 2) (Some 1%Q)
    = Ok {["time" := VArray [(0 * (1 / 1) + 0)%Q; 1%Q]]} ∧
  dom ({["time" := VArray [(0 * (1 / 1) + 0)%Q; 1%Q]]} : obj)
    = ({["time"]} : gset string) ∧
  ∃ t : list Q,
    np.linspace 0 1 2 = Ok t ∧
    getattr "time" {["time" := VArray [(0 * (1 / 1) + 0)%Q; 1%Q]]}
      = (Ok (VArray t), {["time" := VArray [(0 * (1 / 1) + 0)%Q; 1%Q]]}) ∧
    time {["time" := VArray [(0 * (1 / 1) + 0)%Q; 1%Q]]} = Some t.
Proof.
  split; [by vm_compute|].
  apply (constructed_mesh_holds_time_only VNone None (Some 2) (Some 1%Q)).
  by vm_compute.
Defined.

Lemma init_state param target_npts tsteps tend (self : obj) :
  (__init__ param target_npts tsteps tend self).2 = self ∨
  ∃ t : list Q,
    (__init__ param target_npts tsteps tend self).2
      = <["time" := VArray t]> self.
Proof.
  destruct (np.linspace 0 tend tsteps) as [t|e] eqn:Ht.
  - right. exists t. by rewrite (init_ok _ _ _ _ t self Ht).
  - left. by rewrite (init_raise _ _ _ _ e self Ht).
Qed.

(** X5.  [__init__] touches no attribute but [time]: run on any object, with
    any arguments, returning or raising, it leaves every other attribute
    as it was, and with it the result of each of the four properties. *)
Theorem init_touches_only_time (param target_npts : value) (tsteps : Z)
    (tend : Q) (self : obj) (name : string) (a : accessor) :
  name ≠ "time" →
  (__init__ param target_npts tsteps tend self).2 !! name = self !! name ∧
  (fget a (__init__ param target_npts tsteps tend self).2).1
    = (fget a self).1.
Proof.
  intros Hne.
  assert (Hframe : ∀ k : string, k ≠ "time" →
    (__init__ param target_npts tsteps tend self).2 !! k = self !! k).
  { intros k Hk.
    destruct (init_state param target_npts tsteps tend self) as [->|[t ->]];
      [done|]. by rewrite lookup_insert_ne. }
  split; [by apply Hframe|].
  rewrite fget_self_attr. unfold self_attr.
  rewrite Hframe by (by destruct a).
  by destruct (self !! backing_field a).
Qed.

Lemma init_touches_only_time_witness :
  "_separator" ≠ "time" ∧
  (__init__ VNone (VInt 10) 3 1 {["_separator" := VObj 7]}).2 !! "_separator"
    = ({["_separator" := VObj 7]} : obj) !! "_separator" ∧
  (fget Separator
     (__init__ VNone (VInt 10) 3 1 {["_separator" := VObj 7]}).2).1
    = (fget Separator {["_separator" := VObj 7]}).1.
Proof.
  split; [done|].
  by apply (init_touches_only_time VNone (VInt 10) 3 1%Q
              {["_separator" := VObj 7]} "_separator" Separator).
Defined.





Lemma backing_field_inj (a b : accessor) :
  backing_field a = backing_field b → a = b.
Proof. by destruct a, b. Qed.

(** X8.  The four properties read four different attributes: storing a value
    in the backing field of one property makes that property return it
    and leaves the result of every other property as it was. *)
Theorem accessors_are_independent (self : obj) (a b : accessor) (v : value) :
  a ≠ b →
  setattr (backing_field b) v self
    = (Ok tt, <[backing_field b := v]> self) ∧
  fget b (<[backing_field b := v]> self)
    = (Ok v, <[backing_field b := v]> self) ∧
  (fget a (<[backing_field b := v]> self)).1 = (fget a self).1.
Proof.
  intros Hab. split; [|split].
  - unfold setattr. by rewrite class_property_backing.
  - rewrite fget_self_attr. apply self_attr_set, lookup_insert_eq.
  - rewrite fget_self_attr. unfold self_attr.
    rewrite lookup_insert_ne.
    + by destruct (self !! backing_field a).
    + intros Heq. apply Hab. symmetry. by apply backing_field_inj.
Qed.

Lemma accessors_are_independent_witness :
  Separator ≠ PositiveElectrode ∧
  setattr "_positive_electrode" (VObj 2) {["_separator" := VObj 1]}
    = (Ok tt, <["_positive_electrode" := VObj 2]> {["_separator" := VObj 1]}) ∧
  fget PositiveElectrode
      (<["_positive_electrode" := VObj 2]> {["_separator" := VObj 1]})
    = (Ok (VObj 2),
       <["_positive_electrode" := VObj 2]> {["_separator" := VObj 1]}) ∧
  (fget Separator
      (<["_positive_electrode" := VObj 2]> {["_separator" := VObj 1]})).1
    = (fget Separator {["_separator" := VObj 1]}).1.
Proof.
  split; [done|].
  by apply (accessors_are_independent {["_separator" := VObj 1]}
              Separator PositiveElectrode (VObj 2)).
Defined.

(** X9.  Unlike the four properties, [time] is an ordinary attribute:
    assigning to it succeeds on any mesh, a later read of [self.time]
    returns the new value, and the four properties are not affected. *)
Theorem time_can_be_rebound (self : obj) (v : value) (a : accessor) :
  setattr "time" v self = (Ok tt, <["time" := v]> self) ∧
  getattr "time" (<["time" := v]> self) = (Ok v, <["time" := v]> self) ∧
  (fget a (<["time" := v]> self)).1 = (fget a self).1.
Proof.
  split; [done|]. split.
  - unfold getattr. simpl. unfold self_attr. by rewrite lookup_insert_eq.
  - rewrite fget_self_attr. unfold self_attr.
    rewrite lookup_insert_ne by apply backing_field_not_time.
    by destruct (self !! backing_field a).
Qed.
